(** * IntelliFlow API gateway: token validation and the auth middleware

    A shallow embedding of the TypeScript gateway
    ([backend/api-gateway/src]): the configuration module, the
    [DescopeService] token validator, the Express [authMiddleware] and the
    proxy router mounted behind it.

    JavaScript values are kept dynamic (the source casts the payload fields
    with [as], which checks nothing at run time), exceptions are explicit,
    and the calls the source makes on its collaborators (the logger, the
    JOSE library) are recorded in an effect trace.  The JOSE library and the
    clock are not part of the repository: they enter as the fields of a
    [Runtime] record. *)

From Stdlib Require Import ZArith String Ascii.
From stdpp Require Import base gmap strings list.

Local Open Scope Z_scope.
Set Warnings "-register-all".

(** ** JavaScript values *)

Module Js.

Inductive value : Type :=
| Undefined
| Null
| Bool (b : bool)
| Num (n : Z)
| Str (s : string)
| Arr (xs : list value)
| Obj (fields : list (string * value)).

(** [ToBoolean]: [undefined], [null], [false], [0] and the empty string
    are falsy; every array and object is truthy, the empty array too. *)
Definition truthy (v : value) : bool :=
  match v with
  | Undefined | Null => false
  | Bool b => b
  | Num n => negb (n =? 0)
  | Str s => negb (String.eqb s "")
  | Arr _ | Obj _ => true
  end.

(** [a || b] *)
Definition or (a b : value) : value := if truthy a then a else b.

(** An [Error] object, as far as the gateway reads it. *)
Record Error : Type := mkError { name : string; message : string }.

(** [s.startsWith(p)] *)
Definition startsWith (s p : string) : bool := String.prefix p s.

(** [s.substring(n)]: the characters from index [n] to the end. *)
Fixpoint substring (n : nat) (s : string) : string :=
  match n, s with
  | O, _ => s
  | S _, EmptyString => EmptyString
  | S n', String _ r => substring n' r
  end.

(** [s.split(sep)] for a one-character separator: never the empty list,
    and an empty field between two adjacent separators. *)
Fixpoint split (sep : ascii) (s : string) : list string :=
  match s with
  | EmptyString => [EmptyString]
  | String c r =>
      if Ascii.eqb c sep then EmptyString :: split sep r
      else match split sep r with
           | h :: t => String c h :: t
           | [] => [String c EmptyString]
           end
  end.

(** [xs.join(sep)] on strings. *)
Fixpoint join (sep : string) (xs : list string) : string :=
  match xs with
  | [] => EmptyString
  | [x] => x
  | x :: rest => x +:+ sep +:+ join sep rest
  end.

(** Lower case of the ASCII letters, the only ones a route path of the
    gateway contains. *)
Definition lower (c : ascii) : ascii :=
  let n := nat_of_ascii c in
  if ((65 <=? n) && (n <=? 90))%nat then ascii_of_nat (n + 32) else c.

Fixpoint toLowerCase (s : string) : string :=
  match s with
  | EmptyString => EmptyString
  | String c r => String (lower c) (toLowerCase r)
  end.

(** [xs.includes(x)] on an array of strings. *)
Definition includes (xs : list string) (x : string) : bool :=
  existsb (String.eqb x) xs.

(** Property read on a parsed JSON object: an absent key reads as
    [undefined]. *)
Definition get (o : gmap string value) (k : string) : value :=
  default Undefined (o !! k).

End Js.

(** ** Outcomes, effects and the gateway monad *)

(** How a call completes: normally, or by throwing. *)
Inductive Completion (A : Type) : Type :=
| Normal (a : A)
| Throw (e : Js.Error).
Arguments Normal {A} a.
Arguments Throw {A} e.

(** The handle [jose.createRemoteJWKSet(new URL(uri))] returns. *)
Record JWKS : Type := RemoteJWKSet { jwksUri : string }.

Record JWTVerifyOptions : Type :=
  { issuer : string; audience : string }.

(** The decoded payload [jose.jwtVerify] resolves to. *)
Abbreviation JWTPayload := (gmap string Js.value).

(** What the gateway does to its collaborators, in order. *)
Inductive Effect : Type :=
| Log (level msg : string) (meta : list (string * Js.value))
| CreateRemoteJWKSet (uri : string)
| JwtVerify (token : string) (keys : JWKS) (opts : JWTVerifyOptions)
| ProxyTo (target : string).

(** The world outside the repository at the time of a call: the clock
    ([Date.now()], in milliseconds) and the verdict of [jose.jwtVerify],
    which fetches the key set, checks the signature and the registered
    claims, and resolves to the payload or throws. *)
Record Runtime : Type :=
  { Date_now : Z;
    jwtVerify : string -> JWKS -> JWTVerifyOptions -> Completion JWTPayload }.

(** [class DescopeService]: its two private fields. *)
Record DescopeService : Type :=
  { jwks : option JWKS; projectId : string }.

(** The state a request handler runs in: the [descopeService] singleton
    and the trace of effects so far (latest last). *)
Record State : Type :=
  { service : DescopeService; effects : list Effect }.

Definition M (A : Type) : Type := State -> Completion A * State.

Definition ret {A} (a : A) : M A := fun st => (Normal a, st).

Definition throw {A} (e : Js.Error) : M A := fun st => (Throw e, st).

Definition bind {A B} (m : M A) (k : A -> M B) : M B :=
  fun st =>
    match m st with
    | (Normal a, st') => k a st'
    | (Throw e, st') => (Throw e, st')
    end.

(** [try { body } catch (error) { handler }] *)
Definition try_catch {A} (body : M A) (handler : Js.Error -> M A) : M A :=
  fun st =>
    match body st with
    | (Normal a, st') => (Normal a, st')
    | (Throw e, st') => handler e st'
    end.

(** The state once effect [e] has been performed. *)
Definition record (e : Effect) (st : State) : State :=
  {| service := service st; effects := effects st ++ [e] |}.

Definition emit (e : Effect) : M unit := fun st => (Normal tt, record e st).

Definition this : M DescopeService := fun st => (Normal (service st), st).

Definition set_jwks (k : JWKS) : M unit :=
  fun st =>
    (Normal tt,
     {| service := {| jwks := Some k; projectId := projectId (service st) |};
        effects := effects st |}).

(** Lifts an outcome of the runtime into the monad. *)
Definition await {A} (c : Completion A) : M A := fun st => (c, st).

Declare Scope gw_scope.
Delimit Scope gw_scope with gw.
Notation "x <- m ;; k" := (bind m (fun x => k))
  (at level 100, m at next level, right associativity) : gw_scope.
Notation "m ;;; k" := (bind m (fun _ => k))
  (at level 100, right associativity) : gw_scope.
Local Open Scope gw_scope.

Definition logger_debug msg meta : M unit := emit (Log "debug" msg meta).
Definition logger_warn msg meta : M unit := emit (Log "warn" msg meta).
Definition logger_error msg meta : M unit := emit (Log "error" msg meta).

(** ** [config/index.ts] *)

(** [process.env.K || d] *)
Definition env_or (env : gmap string string) (k d : string) : string :=
  match env !! k with
  | Some v => if String.eqb v "" then d else v
  | None => d
  end.

(** The fields of [config] the authorization path reads. *)
Record Config : Type :=
  { nodeEnv : string;
    agentAUrl : string;
    agentBUrl : string;
    descopeProjectId : string }.

Definition config (env : gmap string string) : Config :=
  {| nodeEnv := env_or env "NODE_ENV" "development";
     agentAUrl := env_or env "AGENT_A_URL" "http://localhost:8001";
     agentBUrl := env_or env "AGENT_B_URL" "http://localhost:8002";
     descopeProjectId := env_or env "DESCOPE_PROJECT_ID" "" |}.

(** Loading the module either yields the configuration or ends the
    process with [process.exit(1)]. *)
Inductive Startup : Type :=
| Running (cfg : Config)
| Exited (code : Z).

Definition load_config (env : gmap string string) : Startup :=
  let cfg := config env in
  if negb (Js.truthy (Js.Str (descopeProjectId cfg)))
     && String.eqb (nodeEnv cfg) "production"
  then Exited 1
  else Running cfg.

(** ** [services/descope.service.ts] *)

Record TokenClaims : Type :=
  { sub : Js.value;
    email : Js.value;
    name : Js.value;
    scopes : Js.value;
    exp : Js.value;
    iat : Js.value;
    iss : Js.value;
    aud : Js.value }.

(** [constructor()] *)
Definition new_DescopeService (cfg : Config) : DescopeService :=
  {| jwks := None; projectId := descopeProjectId cfg |}.

(** [`https://api.descope.com/${projectId}/.well-known/jwks.json`] *)
Definition jwks_uri (projectId : string) : string :=
  "https://api.descope.com/" +:+ projectId +:+ "/.well-known/jwks.json".

Definition getJWKS : M JWKS :=
  svc <- this ;;
  match jwks svc with
  | None =>
      let jwksUri := jwks_uri (projectId svc) in
      emit (CreateRemoteJWKSet jwksUri) ;;;
      set_jwks (RemoteJWKSet jwksUri) ;;;
      ret (RemoteJWKSet jwksUri)
  | Some k => ret k
  end.

Definition getMockClaims (rt : Runtime) (token : string) : TokenClaims :=
  {| sub := Js.Str "dev_user_123";
     email := Js.Str "dev@intelliflow.local";
     name := Js.Str "Development User";
     scopes := Js.Arr [Js.Str "email.read"; Js.Str "email.summarize";
                       Js.Str "calendar.read"; Js.Str "calendar.write"];
     exp := Js.Num (Date_now rt / 1000 + 3600);
     iat := Js.Num (Date_now rt / 1000);
     iss := Js.Str "intelliflow-dev";
     aud := Js.Undefined |}.

(** [(payload.scope as string).split(' ')]: the cast checks nothing, so a
    truthy value that is not a string has no [split] method and the call
    throws a [TypeError]. *)
Definition scope_split (scope : Js.value) : Completion Js.value :=
  match scope with
  | Js.Str s => Normal (Js.Arr (map Js.Str (Js.split " " s)))
  | _ => Throw (Js.mkError "TypeError" "scope.split is not a function")
  end.

(** The [// Extract scopes] block. *)
Definition extract_scopes (payload : JWTPayload) : Completion Js.value :=
  if Js.truthy (Js.get payload "scopes") then Normal (Js.get payload "scopes")
  else if Js.truthy (Js.get payload "scope") then scope_split (Js.get payload "scope")
  else if Js.truthy (Js.get payload "permissions") then Normal (Js.get payload "permissions")
  else Normal (Js.Arr []).

(** The condition of the development branch. *)
Definition mock_mode (cfg : Config) (svc : DescopeService) : bool :=
  negb (Js.truthy (Js.Str (projectId svc)))
  || String.eqb (nodeEnv cfg) "development".

(** The options object handed to [jose.jwtVerify]. *)
Definition verify_options (projectId : string) : JWTVerifyOptions :=
  {| issuer := "https://api.descope.com/" +:+ projectId;
     audience := projectId |}.

(** The object literal [validateToken] returns. *)
Definition claims_of (payload : JWTPayload) (scopes : Js.value) : TokenClaims :=
  {| sub := Js.or (Js.get payload "sub") (Js.Str "");
     email := Js.get payload "email";
     name := Js.get payload "name";
     scopes := scopes;
     exp := Js.or (Js.get payload "exp") (Js.Num 0);
     iat := Js.or (Js.get payload "iat") (Js.Num 0);
     iss := Js.or (Js.get payload "iss") (Js.Str "");
     aud := Js.get payload "aud" |}.

(** The error the [catch] block rethrows. *)
Definition validation_failed (error : Js.Error) : Js.Error :=
  Js.mkError "Error" ("Token validation failed: " +:+ Js.message error).

Definition validateToken (cfg : Config) (rt : Runtime) (token : string)
  : M TokenClaims :=
  try_catch
    (svc <- this ;;
     if mock_mode cfg svc then
       logger_debug "Using mock token validation (development mode)" [] ;;;
       ret (getMockClaims rt token)
     else
       keys <- getJWKS ;;
       let opts := verify_options (projectId svc) in
       emit (JwtVerify token keys opts) ;;;
       payload <- await (jwtVerify rt token keys opts) ;;
       scopes <- await (extract_scopes payload) ;;
       ret (claims_of payload scopes))
    (fun error =>
       logger_error "Token validation failed" [("error", Js.Str (Js.message error))] ;;;
       throw (validation_failed error)).

(** ** [middleware/auth.middleware.ts] *)

Definition PUBLIC_PATHS : list string :=
  ["/"; "/health"; "/api/auth/validate"; "/api/auth/refresh"].

Record User : Type :=
  { id : Js.value; user_email : Js.value; user_scopes : Js.value }.

(** The request, as far as the middleware reads and writes it:
    [req.path], [req.headers.authorization] and [req.user]. *)
Record Request : Type :=
  { path : string; authorization : option string; user : option User }.

(** [res.status(s).json({ error: { code, message } })] *)
Record Response : Type :=
  { status : Z; code : string; error_message : string }.

(** A middleware either hands the request on with [next()] or answers. *)
Inductive Outcome : Type :=
| Next (req : Request)
| Respond (res : Response).

Definition MISSING_TOKEN : Response :=
  {| status := 401; code := "MISSING_TOKEN";
     error_message := "Authorization header with Bearer token required" |}.

Definition UNAUTHORIZED (error : Js.Error) : Response :=
  {| status := 401; code := "UNAUTHORIZED";
     error_message :=
       if Js.truthy (Js.Str (Js.message error)) then Js.message error
       else "Authentication failed" |}.

(** [authHeader?.startsWith('Bearer ')], with [undefined] for an absent
    header. *)
Definition has_bearer (authHeader : option string) : bool :=
  match authHeader with
  | Some h => Js.startsWith h "Bearer "
  | None => false
  end.

(** [authHeader.substring(7)] *)
Definition bearer_token (req : Request) : string :=
  Js.substring 7 (default "" (authorization req)).

(** The object assigned to [req.user]. *)
Definition user_of (claims : TokenClaims) : User :=
  {| id := sub claims;
     user_email := email claims;
     user_scopes := Js.or (scopes claims) (Js.Arr []) |}.

Definition with_user (req : Request) (u : User) : Request :=
  {| path := path req; authorization := authorization req; user := Some u |}.

Definition authMiddleware (cfg : Config) (rt : Runtime) (req : Request)
  : M Outcome :=
  try_catch
    (if Js.includes PUBLIC_PATHS (path req) then ret (Next req)
     else if negb (has_bearer (authorization req)) then ret (Respond MISSING_TOKEN)
     else
       let token := bearer_token req in
       claims <- validateToken cfg rt token ;;
       let req' := with_user req (user_of claims) in
       logger_debug "User authenticated"
         [("userId", id (user_of claims)); ("path", Js.Str (path req))] ;;;
       ret (Next req'))
    (fun error =>
       logger_warn "Authentication failed"
         [("error", Js.Str (Js.message error)); ("path", Js.Str (path req))] ;;;
       ret (Respond (UNAUTHORIZED error))).

(** ** [routes/proxy.routes.ts] *)

(** [router.use(mount, handler)]: the handler sees the requests whose
    path is the mount path or continues it with a [/]; the router is not
    case sensitive. *)
Definition mounted (mount p : string) : bool :=
  String.eqb (Js.toLowerCase p) (Js.toLowerCase mount)
  || Js.startsWith (Js.toLowerCase p) (Js.toLowerCase mount +:+ "/").

(** What becomes of a request that enters the proxy router. *)
Inductive Routed : Type :=
| Answered (res : Response)
| Proxied (target : string) (req : Request)
| FellThrough (req : Request).

Definition proxy_router (cfg : Config) (rt : Runtime) (req : Request)
  : M Routed :=
  o <- authMiddleware cfg rt req ;;
  match o with
  | Respond res => ret (Answered res)
  | Next req' =>
      if mounted "/emails" (path req') then
        emit (ProxyTo (agentAUrl cfg)) ;;; ret (Proxied (agentAUrl cfg) req')
      else if mounted "/calendar" (path req') then
        emit (ProxyTo (agentBUrl cfg)) ;;; ret (Proxied (agentBUrl cfg) req')
      else ret (FellThrough req')
  end.

(** ** [routes/auth.routes.ts] *)

(** What a route handler sends: the status and the JSON body, an
    [undefined] field standing for one that serialisation drops. *)
Record Reply : Type := { reply_status : Z; reply_body : Js.value }.

(** [{ error: { code, message } }] *)
Definition error_body (code message : string) : Js.value :=
  Js.Obj [("error", Js.Obj [("code", Js.Str code); ("message", Js.Str message)])].

(** [res.status(s).json(body)] *)
Definition status_json (s : Z) (body : Js.value) : Reply :=
  {| reply_status := s; reply_body := body |}.

(** [res.json(body)], with the default status. *)
Definition json (body : Js.value) : Reply := status_json 200 body.

(** [error.message || fallback] *)
Definition message_or (error : Js.Error) (fallback : string) : string :=
  if Js.truthy (Js.Str (Js.message error)) then Js.message error else fallback.

(** [router.post('/validate', ...)] *)
Definition post_validate (cfg : Config) (rt : Runtime) (req : Request)
  : M Reply :=
  try_catch
    (if negb (has_bearer (authorization req)) then
       ret (status_json 401
              (error_body "MISSING_TOKEN"
                 "Authorization header with Bearer token required"))
     else
       let token := bearer_token req in
       claims <- validateToken cfg rt token ;;
       ret (json (Js.Obj [("valid", Js.Bool true);
                          ("claims", Js.Obj [("sub", sub claims);
                                             ("email", email claims);
                                             ("scopes", scopes claims);
                                             ("exp", exp claims)])])))
    (fun error =>
       logger_warn "Token validation failed" [("error", Js.Str (Js.message error))] ;;;
       ret (status_json 401
              (error_body "INVALID_TOKEN" (message_or error "Token validation failed")))).

(** [router.get('/me', ...)] *)
Definition get_me (cfg : Config) (rt : Runtime) (req : Request) : M Reply :=
  try_catch
    (if negb (has_bearer (authorization req)) then
       ret (status_json 401 (error_body "MISSING_TOKEN" "Authorization required"))
     else
       let token := bearer_token req in
       claims <- validateToken cfg rt token ;;
       ret (json (Js.Obj [("user", Js.Obj [("id", sub claims);
                                           ("email", email claims);
                                           ("name", name claims);
                                           ("scopes", scopes claims)])])))
    (fun error =>
       ret (status_json 401 (error_body "UNAUTHORIZED" "Invalid or expired session"))).



(** ** [middleware/error.middleware.ts] *)

(** [process.env.K === v] *)
Definition env_is (env : gmap string string) (k v : string) : bool :=
  match env !! k with
  | Some x => String.eqb x v
  | None => false
  end.

(** The handler reads [process.env.NODE_ENV] itself, not [config.nodeEnv].
    [stack] is [error.stack]. *)
Definition errorMiddleware (env : gmap string string) (error : Js.Error)
    (stack : Js.value) (method : string) (req : Request) : M Reply :=
  logger_error "Unhandled error"
    [("error", Js.Str (Js.message error)); ("stack", stack);
     ("path", Js.Str (path req)); ("method", Js.Str method)] ;;;
  ret (status_json 500
         (error_body "INTERNAL_SERVER_ERROR"
            (if env_is env "NODE_ENV" "development" then Js.message error
             else "An unexpected error occurred"))).

(** ** [middleware/rate-limit.middleware.ts] *)

(** [(req as any).user?.id] *)
Definition user_id (req : Request) : Js.value :=
  match user req with
  | Some u => id u
  | None => Js.Undefined
  end.

(** [keyGenerator], on the request and [req.ip]. *)
Definition keyGenerator (req : Request) (ip : option string) : Js.value :=
  Js.or (Js.or (user_id req) (from_option Js.Str Js.Undefined ip))
    (Js.Str "anonymous").

(** ** Frontend: [utils/api-client.ts] *)

(** The browser, as the interceptors see it: [window] is undefined when
    the code runs on the server; otherwise [sessionStorage] holds string
    items. *)
Abbreviation Window := (option (gmap string string)).



(** An axios error: [error.response?.status]. *)
Record AxiosError : Type := { response_status : option Z }.

(** The error handler of the response interceptor: the page it sends the
    browser to, if any, and the error it rejects with. *)
Definition response_error_interceptor (window : Window) (error : AxiosError)
  : option string * AxiosError :=
  (match response_status error with
   | Some s => if (s =? 401) && bool_decide (is_Some window)
               then Some "/auth/signin" else None
   | None => None
   end,
   error).

(** * Vocabulary of the statements *)

(** The key-set handle a verification uses: the memoised one, or the one
    [getJWKS] creates for the service's project. *)
Definition keys_in_use (svc : DescopeService) : JWKS :=
  default (RemoteJWKSet (jwks_uri (projectId svc))) (jwks svc).

(** What [getJWKS] does to the library: one client on the first call,
    nothing once the handle is memoised. *)
Definition jwks_creation (svc : DescopeService) : list Effect :=
  match jwks svc with
  | None => [CreateRemoteJWKSet (jwks_uri (projectId svc))]
  | Some _ => []
  end.

(** The state in which [jose.jwtVerify] has just been called on [token]. *)
Definition verifying (token : string) (st : State) : State :=
  record (JwtVerify token (keys_in_use (service st))
            (verify_options (projectId (service st))))
    (getJWKS st).2.

(** The library's verdict on [token] for the service in state [st]. *)
Definition verdict (rt : Runtime) (token : string) (st : State)
  : Completion JWTPayload :=
  jwtVerify rt token (keys_in_use (service st))
    (verify_options (projectId (service st))).

Definition mock_log : Effect :=
  Log "debug" "Using mock token validation (development mode)" [].

Definition failure_log (e : Js.Error) : Effect :=
  Log "error" "Token validation failed" [("error", Js.Str (Js.message e))].

(** A request the middleware does not let through unauthenticated. *)
Definition protected (req : Request) : Prop :=
  Js.includes PUBLIC_PATHS (path req) = false.

Definition authenticated_log (req : Request) (c : TokenClaims) : Effect :=
  Log "debug" "User authenticated"
    [("userId", id (user_of c)); ("path", Js.Str (path req))].

Definition denied_log (req : Request) (e : Js.Error) : Effect :=
  Log "warn" "Authentication failed"
    [("error", Js.Str (Js.message e)); ("path", Js.Str (path req))].

(** The effects performed between two states of one run. *)
Definition new_effects (before after : State) : list Effect :=
  drop (length (effects before)) (effects after).

(** The three places a payload may carry its scope list. *)
Inductive ScopeForm : Type :=
| ScopeString
| ScopesArray
| PermissionsArray.

Definition scope_field (f : ScopeForm) : string :=
  match f with
  | ScopeString => "scope"
  | ScopesArray => "scopes"
  | PermissionsArray => "permissions"
  end.

(** The value found under that field for the scope list [l]: the scopes
    joined by single spaces, or the array of them. *)
Definition scope_claim (f : ScopeForm) (l : list string) : Js.value :=
  match f with
  | ScopeString => Js.Str (Js.join " " l)
  | ScopesArray | PermissionsArray => Js.Arr (map Js.Str l)
  end.

(** A payload with no scope claim, completed with [l] in form [f]. *)
Definition with_scopes (f : ScopeForm) (l : list string) (base : JWTPayload)
  : JWTPayload :=
  <[scope_field f := scope_claim f l]> base.

Fixpoint no_space (w : string) : bool :=
  match w with
  | EmptyString => true
  | String c r => negb (Ascii.eqb c " ") && no_space r
  end.

(** A scope value: not empty and free of the separator. *)
Definition scope_word (w : string) : Prop :=
  w <> "" /\ no_space w = true.

(** The effects one run of [validateToken] adds to the trace. *)
Definition validation_effects (cfg : Config) (rt : Runtime) (token : string)
    (st : State) : list Effect :=
  if mock_mode cfg (service st) then [mock_log]
  else
    jwks_creation (service st)
      ++ JwtVerify token (keys_in_use (service st))
           (verify_options (projectId (service st)))
         :: match verdict rt token st with
            | Throw e => [failure_log e]
            | Normal p =>
                match extract_scopes p with
                | Throw e => [failure_log e]
                | Normal _ => []
                end
            end.

(** The service once one run of [validateToken] is over. *)
Definition validated_service (cfg : Config) (svc : DescopeService)
  : DescopeService :=
  if mock_mode cfg svc then svc
  else {| jwks := Some (keys_in_use svc); projectId := projectId svc |}.

(** A series of validations, one after the other, each with the runtime
    of its moment. *)
Fixpoint validate_each (cfg : Config) (calls : list (Runtime * string))
    (st : State) : State :=
  match calls with
  | [] => st
  | (rt, token) :: rest =>
      validate_each cfg rest (validateToken cfg rt token st).2
  end.

Definition is_creation (e : Effect) : bool :=
  match e with
  | CreateRemoteJWKSet _ => true
  | _ => false
  end.


(** The bodies [POST /validate] and [GET /me] answer with. *)
Definition validate_body (c : TokenClaims) : Js.value :=
  Js.Obj [("valid", Js.Bool true);
          ("claims", Js.Obj [("sub", sub c); ("email", email c);
                             ("scopes", scopes c); ("exp", exp c)])].

Definition me_body (c : TokenClaims) : Js.value :=
  Js.Obj [("user", Js.Obj [("id", sub c); ("email", email c);
                           ("name", name c); ("scopes", scopes c)])].

(** ** Sample inputs *)

Module Sample.

Definition env_production : gmap string string :=
  <["NODE_ENV" := "production"]> (<["DESCOPE_PROJECT_ID" := "P2demo"]> ∅).


(** A runtime whose library verdict depends on the token alone. *)
Definition runtime (verdicts : string -> Completion JWTPayload) : Runtime :=
  {| Date_now := 1700000000123;
     jwtVerify := fun token _ _ => verdicts token |}.

Definition cfg_production : Config := config env_production.


Definition fresh (cfg : Config) : State :=
  {| service := new_DescopeService cfg; effects := [] |}.

Definition request (p : string) (h : option string) : Request :=
  {| path := p; authorization := h; user := None |}.

Definition email_payload : JWTPayload :=
  <["sub" := Js.Str "user-1"]>
    (<["iss" := Js.Str "https://api.descope.com/P2demo"]>
       (<["aud" := Js.Str "P2demo"]>
          (<["exp" := Js.Num 1700003600]>
             (<["scopes" := Js.Arr [Js.Str "email.read"; Js.Str "email.summarize"]]> ∅)))).

Definition JWKSTimeout : Js.Error := Js.mkError "JWKSTimeout" "request timed out".

Definition JWTExpired : Js.Error := Js.mkError "JWTExpired" "exp claim timestamp check failed".




(** The registered claims alone: no scope claim under any name. *)
Definition payload_without_scopes : JWTPayload :=
  <["sub" := Js.Str "user-1"]>
    (<["iss" := Js.Str "https://api.descope.com/P2demo"]>
       (<["aud" := Js.Str "P2demo"]> (<["exp" := Js.Num 1700003600]> ∅))).

Definition calendar_request : Request :=
  request "/calendar/events" (Some "Bearer header.payload.signature").

Definition anonymous_request : Request := request "/emails/inbox" None.

Definition basic_auth_request : Request :=
  request "/emails/inbox" (Some "Basic dXNlcjpwYXNz").



Definition payload_with_bad_scope : JWTPayload :=
  <["sub" := Js.Str "user-1"]> (<["scope" := Js.Num 7]> ∅).

End Sample.

(** * Properties *)

(** ** Running [validateToken] *)

Ltac run_gw :=
  unfold validateToken, getJWKS, try_catch, bind, this, await, ret, throw,
    emit, set_jwks, logger_debug, logger_error, logger_warn; simpl.

Lemma getJWKS_result st :
  (getJWKS st).1 = Normal (keys_in_use (service st)).
Proof.
  unfold keys_in_use. run_gw. by destruct (jwks (service st)).
Qed.

Lemma getJWKS_service st :
  service (getJWKS st).2
  = {| jwks := Some (keys_in_use (service st));
       projectId := projectId (service st) |}.
Proof.
  destruct st as [[[k|] pid] tr]; reflexivity.
Qed.

(** A second [getJWKS] finds the memoised handle and creates nothing. *)
Lemma getJWKS_memoised st :
  getJWKS (getJWKS st).2 = (Normal (keys_in_use (service st)), (getJWKS st).2).
Proof.
  destruct st as [[[k|] pid] tr]; reflexivity.
Qed.

Section ValidateToken.
Context (cfg : Config) (rt : Runtime).

Lemma validateToken_mock token st :
  mock_mode cfg (service st) = true ->
  validateToken cfg rt token st
  = (Normal (getMockClaims rt token), record mock_log st).
Proof.
  intros Hm. run_gw. by rewrite Hm.
Qed.

Lemma validateToken_rejected token st e :
  mock_mode cfg (service st) = false ->
  verdict rt token st = Throw e ->
  validateToken cfg rt token st
  = (Throw (validation_failed e),
     record (failure_log e) (verifying token st)).
Proof.
  unfold verdict, verifying, keys_in_use. intros Hm Hv. run_gw. rewrite Hm.
  destruct (jwks (service st)); simpl in *; by rewrite Hv.
Qed.

Lemma validateToken_verified token st payload :
  mock_mode cfg (service st) = false ->
  verdict rt token st = Normal payload ->
  validateToken cfg rt token st
  = match extract_scopes payload with
    | Normal s => (Normal (claims_of payload s), verifying token st)
    | Throw e =>
        (Throw (validation_failed e),
         record (failure_log e) (verifying token st))
    end.
Proof.
  unfold verdict, verifying, keys_in_use. intros Hm Hv. run_gw. rewrite Hm.
  destruct (jwks (service st)); simpl in *; rewrite Hv;
    by destruct (extract_scopes payload).
Qed.

(** Every run of [validateToken] leaves a mark in the trace. *)
Lemma validateToken_traced token st :
  exists e more,
    effects (validateToken cfg rt token st).2 = effects st ++ e :: more.
Proof.
  destruct (mock_mode cfg (service st)) eqn:Hm.
  - rewrite validateToken_mock by done. by exists mock_log, [].
  - assert (Hk : exists pre, effects (verifying token st)
                             = effects st ++ pre ++ [JwtVerify token (keys_in_use (service st)) (verify_options (projectId (service st)))]).
    { unfold verifying. run_gw. destruct (jwks (service st)); simpl.
      - by exists [].
      - eexists [_]. by rewrite <- app_assoc. }
    destruct Hk as [pre Hk].
    assert (Hr : forall e, effects (record e (verifying token st))
                           = effects (verifying token st) ++ [e]) by done.
    destruct (verdict rt token st) as [p|e] eqn:Hv.
    + rewrite (validateToken_verified _ _ p) by done.
      destruct (extract_scopes p); cbn [snd]; rewrite ?Hr, Hk, <- ?app_assoc;
        destruct pre; cbn [app]; eauto.
    + rewrite (validateToken_rejected _ _ e) by done.
      cbn [snd]; rewrite Hr, Hk, <- !app_assoc. destruct pre; cbn [app]; eauto.
Qed.

End ValidateToken.

(** ** Running [authMiddleware] and the proxy router *)

Lemma new_effects_app st st' l :
  effects st' = effects st ++ l -> new_effects st st' = l.
Proof.
  unfold new_effects. intros ->. by rewrite drop_app_length.
Qed.

Section AuthMiddleware.
Context (cfg : Config) (rt : Runtime).

Lemma authMiddleware_public req st :
  Js.includes PUBLIC_PATHS (path req) = true ->
  authMiddleware cfg rt req st = (Normal (Next req), st).
Proof.
  intros Hp. unfold authMiddleware, try_catch, ret. by rewrite Hp.
Qed.

Lemma authMiddleware_no_bearer req st :
  protected req ->
  has_bearer (authorization req) = false ->
  authMiddleware cfg rt req st = (Normal (Respond MISSING_TOKEN), st).
Proof.
  intros Hp Hb. unfold authMiddleware, try_catch, ret. by rewrite Hp, Hb.
Qed.

Lemma authMiddleware_bearer req st :
  protected req ->
  has_bearer (authorization req) = true ->
  authMiddleware cfg rt req st
  = match validateToken cfg rt (bearer_token req) st with
    | (Normal c, st') =>
        (Normal (Next (with_user req (user_of c))),
         record (authenticated_log req c) st')
    | (Throw e, st') =>
        (Normal (Respond (UNAUTHORIZED e)), record (denied_log req e) st')
    end.
Proof.
  intros Hp Hb.
  unfold authMiddleware, try_catch, bind, ret, logger_debug, logger_warn, emit.
  rewrite Hp, Hb. simpl.
  by destruct (validateToken cfg rt (bearer_token req) st) as [[c|e] st'].
Qed.

(** The router proxies exactly the requests the middleware hands on. *)
Lemma proxy_router_answered req st res st' :
  authMiddleware cfg rt req st = (Normal (Respond res), st') ->
  proxy_router cfg rt req st = (Normal (Answered res), st').
Proof.
  intros H. unfold proxy_router, bind. by rewrite H.
Qed.

Lemma proxy_router_next req st req' st' :
  authMiddleware cfg rt req st = (Normal (Next req'), st') ->
  proxy_router cfg rt req st
  = if mounted "/emails" (path req') then
      (Normal (Proxied (agentAUrl cfg) req'), record (ProxyTo (agentAUrl cfg)) st')
    else if mounted "/calendar" (path req') then
      (Normal (Proxied (agentBUrl cfg) req'), record (ProxyTo (agentBUrl cfg)) st')
    else (Normal (FellThrough req'), st').
Proof.
  intros H. unfold proxy_router, bind. rewrite H.
  destruct (mounted "/emails" (path req')); [done|].
  by destruct (mounted "/calendar" (path req')).
Qed.

End AuthMiddleware.


Lemma verifying_effects token st :
  effects (verifying token st)
  = effects st ++ jwks_creation (service st)
      ++ [JwtVerify token (keys_in_use (service st))
            (verify_options (projectId (service st)))].
Proof.
  destruct st as [[[k|] pid] tr]; cbn; [done|]. by rewrite <- app_assoc.
Qed.

Lemma not_in_jwks_creation svc target : ProxyTo target ∉ jwks_creation svc.
Proof.
  unfold jwks_creation. destruct (jwks svc).
  - apply not_elem_of_nil.
  - rewrite list_elem_of_singleton. discriminate.
Qed.

(** ** The claims *)

(** C7. A protected request whose [Authorization] header is absent, or is
    present without the [Bearer ] prefix, is answered with 401
    [MISSING_TOKEN] in the state the middleware received: [validateToken]
    has not run, since every run of it leaves an effect.  The answer
    differs from each answer the middleware gives on a verification
    failure. *)
Theorem C7_missing_credential_rejected_before_verifier cfg rt req st :
  protected req ->
  (authorization req = None
   \/ exists h, authorization req = Some h /\ Js.startsWith h "Bearer " = false) ->
  authMiddleware cfg rt req st = (Normal (Respond MISSING_TOKEN), st)
  /\ (forall token st0, effects (validateToken cfg rt token st0).2 <> effects st0)
  /\ (forall e, UNAUTHORIZED e <> MISSING_TOKEN).
Proof.
  intros Hp Hh. split; [|split].
  - apply authMiddleware_no_bearer; [done|].
    destruct Hh as [-> | (h & -> & Hs)]; [done | exact Hs].
  - intros token st0 Heq.
    destruct (validateToken_traced cfg rt token st0) as (e & more & Ht).
    rewrite Ht in Heq. apply (f_equal length) in Heq.
    rewrite length_app in Heq. cbn in Heq. lia.
  - intros e. unfold UNAUTHORIZED, MISSING_TOKEN. congruence.
Qed.

Lemma C7_witness_absent_or_basic_header :
  authMiddleware Sample.cfg_production (Sample.runtime (fun _ => Normal Sample.email_payload))
    Sample.anonymous_request (Sample.fresh Sample.cfg_production)
  = (Normal (Respond MISSING_TOKEN), Sample.fresh Sample.cfg_production)
  /\ authMiddleware Sample.cfg_production (Sample.runtime (fun _ => Normal Sample.email_payload))
       Sample.basic_auth_request (Sample.fresh Sample.cfg_production)
     = (Normal (Respond MISSING_TOKEN), Sample.fresh Sample.cfg_production).
Proof.
  split.
  - apply (C7_missing_credential_rejected_before_verifier
             Sample.cfg_production _ Sample.anonymous_request).
    + reflexivity.
    + left. reflexivity.
  - apply (C7_missing_credential_rejected_before_verifier
             Sample.cfg_production _ Sample.basic_auth_request).
    + reflexivity.
    + right. exists "Basic dXNlcjpwYXNz". split; reflexivity.
Defined.

(** C2, refuted as stated.  With the key set unreachable and no cached
    key, the library throws; the router answers 401, which is no status of
    the 5xx class. *)
Lemma C2_counterexample_key_outage_is_401 :
  (proxy_router Sample.cfg_production (Sample.runtime (fun _ => Throw Sample.JWKSTimeout))
     Sample.calendar_request (Sample.fresh Sample.cfg_production)).1
  = Normal (Answered {| status := 401; code := "UNAUTHORIZED";
                        error_message := "Token validation failed: request timed out" |})
  /\ ~ (500 <= 401 <= 599).
Proof.
  split; [vm_compute; reflexivity | lia].
Qed.

(** C2, amended.  Outside the development branch, a protected bearer
    request whose token the library cannot verify (a key-fetch failure
    included) is answered by the router with 401 [UNAUTHORIZED], the
    message being the library's prefixed with [Token validation failed: ],
    and is proxied to no agent. *)
Theorem C2_unverifiable_token_denied_with_401 cfg rt req st e :
  protected req ->
  has_bearer (authorization req) = true ->
  mock_mode cfg (service st) = false ->
  verdict rt (bearer_token req) st = Throw e ->
  exists st',
    proxy_router cfg rt req st
    = (Normal (Answered {| status := 401; code := "UNAUTHORIZED";
                           error_message := "Token validation failed: " +:+ Js.message e |}),
       st')
    /\ forall target, ProxyTo target ∉ new_effects st st'.
Proof.
  intros Hp Hb Hm Hv.
  pose proof (authMiddleware_bearer cfg rt req st Hp Hb) as Ha.
  rewrite (validateToken_rejected cfg rt _ st e Hm Hv) in Ha.
  eexists. split.
  - apply proxy_router_answered. exact Ha.
  - intros target.
    erewrite new_effects_app; last first.
    { cbn [record effects]. rewrite verifying_effects, <- !app_assoc. reflexivity. }
    rewrite !not_elem_of_app. repeat split.
    + apply not_in_jwks_creation.
    + rewrite list_elem_of_singleton. discriminate.
    + rewrite list_elem_of_singleton. discriminate.
    + rewrite list_elem_of_singleton. discriminate.
Qed.

Lemma C2_witness_key_outage :
  exists st',
    proxy_router Sample.cfg_production (Sample.runtime (fun _ => Throw Sample.JWKSTimeout))
      Sample.calendar_request (Sample.fresh Sample.cfg_production)
    = (Normal (Answered {| status := 401; code := "UNAUTHORIZED";
                           error_message := "Token validation failed: request timed out" |}),
       st')
    /\ forall target, ProxyTo target ∉ new_effects (Sample.fresh Sample.cfg_production) st'.
Proof.
  apply (C2_unverifiable_token_denied_with_401 Sample.cfg_production
           (Sample.runtime (fun _ => Throw Sample.JWKSTimeout))
           Sample.calendar_request (Sample.fresh Sample.cfg_production)
           Sample.JWKSTimeout); reflexivity.
Defined.

(** C3, refuted as stated.  A verified token holding only [email.read]
    and [email.summarize] sent to a calendar route is not denied: the
    router proxies the request to Agent B. *)
Lemma C3_counterexample_calendar_route_proxied :
  (proxy_router Sample.cfg_production (Sample.runtime (fun _ => Normal Sample.email_payload))
     Sample.calendar_request (Sample.fresh Sample.cfg_production)).1
  = Normal
      (Proxied "http://localhost:8002"
         {| path := "/calendar/events";
            authorization := Some "Bearer header.payload.signature";
            user := Some {| id := Js.Str "user-1";
                            user_email := Js.Undefined;
                            user_scopes := Js.Arr [Js.Str "email.read";
                                                   Js.Str "email.summarize"] |} |}).
Proof.
  vm_compute. reflexivity.
Qed.

(** C3, amended.  The gateway enforces no scope.  Whatever scopes the
    validated claims hold, the middleware copies them onto [req.user] and
    hands the request on; the router then proxies it by path alone, to
    Agent A under [/emails] and to Agent B under [/calendar]. *)
Theorem C3_gateway_forwards_regardless_of_scopes cfg rt req st c st1 :
  protected req ->
  has_bearer (authorization req) = true ->
  validateToken cfg rt (bearer_token req) st = (Normal c, st1) ->
  authMiddleware cfg rt req st
  = (Normal (Next (with_user req (user_of c))), record (authenticated_log req c) st1)
  /\ user_scopes (user_of c) = Js.or (scopes c) (Js.Arr [])
  /\ (mounted "/emails" (path req) = true ->
      (proxy_router cfg rt req st).1
      = Normal (Proxied (agentAUrl cfg) (with_user req (user_of c))))
  /\ (mounted "/emails" (path req) = false ->
      mounted "/calendar" (path req) = true ->
      (proxy_router cfg rt req st).1
      = Normal (Proxied (agentBUrl cfg) (with_user req (user_of c)))).
Proof.
  intros Hp Hb Hv.
  pose proof (authMiddleware_bearer cfg rt req st Hp Hb) as Ha.
  rewrite Hv in Ha.
  repeat split; [exact Ha | |].
  - intros He. rewrite (proxy_router_next _ _ _ _ _ _ Ha). cbn [path with_user].
    by rewrite He.
  - intros He Hc. rewrite (proxy_router_next _ _ _ _ _ _ Ha). cbn [path with_user].
    by rewrite He, Hc.
Qed.

Lemma C3_witness_calendar_route :
  (proxy_router Sample.cfg_production (Sample.runtime (fun _ => Normal Sample.email_payload))
     Sample.calendar_request (Sample.fresh Sample.cfg_production)).1
  = Normal (Proxied (agentBUrl Sample.cfg_production)
              (with_user Sample.calendar_request
                 (user_of (claims_of Sample.email_payload
                             (Js.Arr [Js.Str "email.read"; Js.Str "email.summarize"]))))).
Proof.
  refine (proj2 (proj2 (proj2
    (C3_gateway_forwards_regardless_of_scopes Sample.cfg_production
       (Sample.runtime (fun _ => Normal Sample.email_payload))
       Sample.calendar_request (Sample.fresh Sample.cfg_production)
       (claims_of Sample.email_payload
          (Js.Arr [Js.Str "email.read"; Js.Str "email.summarize"]))
       (verifying "header.payload.signature" (Sample.fresh Sample.cfg_production))
       _ _ _))) _ _); reflexivity.
Defined.







(** C10.  A token the library verifies whose payload has none of
    [scopes], [scope] and [permissions] is not rejected: [validateToken]
    returns a claim set with the empty scope array, the middleware
    attaches that empty array to [req.user], and no scope is a member of
    it. *)
Theorem C10_scopeless_token_authenticates_with_no_scope cfg rt token st payload :
  mock_mode cfg (service st) = false ->
  verdict rt token st = Normal payload ->
  payload !! "scopes" = None ->
  payload !! "scope" = None ->
  payload !! "permissions" = None ->
  exists c,
    validateToken cfg rt token st = (Normal c, verifying token st)
    /\ scopes c = Js.Arr []
    /\ user_scopes (user_of c) = Js.Arr []
    /\ forall held required,
         user_scopes (user_of c) = Js.Arr held -> Js.Str required ∉ held.
Proof.
  intros Hm Hv H1 H2 H3.
  assert (Hs : extract_scopes payload = Normal (Js.Arr [])).
  { unfold extract_scopes, Js.get. by rewrite H1, H2, H3. }
  exists (claims_of payload (Js.Arr [])). split; [|repeat split].
  - rewrite (validateToken_verified cfg rt token st payload Hm Hv). by rewrite Hs.
  - intros held required [= <-]. apply not_elem_of_nil.
Qed.

Lemma C10_witness_registered_claims_only :
  exists c,
    validateToken Sample.cfg_production
      (Sample.runtime (fun _ => Normal Sample.payload_without_scopes))
      "header.payload.signature" (Sample.fresh Sample.cfg_production)
    = (Normal c, verifying "header.payload.signature" (Sample.fresh Sample.cfg_production))
    /\ scopes c = Js.Arr []
    /\ user_scopes (user_of c) = Js.Arr []
    /\ forall held required,
         user_scopes (user_of c) = Js.Arr held -> Js.Str required ∉ held.
Proof.
  apply (C10_scopeless_token_authenticates_with_no_scope Sample.cfg_production
           (Sample.runtime (fun _ => Normal Sample.payload_without_scopes))
           "header.payload.signature" (Sample.fresh Sample.cfg_production)
           Sample.payload_without_scopes); reflexivity.
Defined.

(** ** The development branch *)

Lemma mock_mode_iff cfg svc :
  mock_mode cfg svc = true <-> projectId svc = "" \/ nodeEnv cfg = "development".
Proof.
  unfold mock_mode. cbn [Js.truthy].
  rewrite orb_true_iff, negb_involutive, !String.eqb_eq. tauto.
Qed.








(** ** Scope extraction *)

Lemma split_no_space w :
  no_space w = true -> Js.split " " w = [w].
Proof.
  induction w as [|c r IH]; cbn [Js.split no_space]; [done|].
  intros [Hc Hr]%andb_true_iff. apply negb_true_iff in Hc.
  rewrite Hc, (IH Hr). done.
Qed.

Lemma split_append_separator w rest :
  no_space w = true ->
  Js.split " " (w +:+ String " " rest) = w :: Js.split " " rest.
Proof.
  induction w as [|c r IH]; [done|]. cbn [no_space].
  intros [Hc Hr]%andb_true_iff. apply negb_true_iff in Hc.
  change (String c r +:+ String " " rest) with (String c (r +:+ String " " rest)).
  cbn [Js.split]. rewrite Hc, (IH Hr). done.
Qed.

Lemma split_join l :
  Forall scope_word l -> l <> [] -> Js.split " " (Js.join " " l) = l.
Proof.
  induction 1 as [|w l [_ Hw] Hl IH]; [done|]. intros _.
  destruct l as [|w' l'].
  - cbn. by apply split_no_space.
  - change (Js.join " " (w :: w' :: l'))
      with (w +:+ String " " (Js.join " " (w' :: l'))).
    rewrite split_append_separator by done. by rewrite IH.
Qed.

Lemma join_truthy l :
  Forall scope_word l -> l <> [] -> Js.truthy (Js.Str (Js.join " " l)) = true.
Proof.
  intros Hl Hne. destruct Hl as [|w l [Hw _] _]; [done|].
  destruct w as [|c r]; [done|]. by destruct l.
Qed.

Lemma get_insert_eq (o : JWTPayload) k v : Js.get (<[k := v]> o) k = v.
Proof. unfold Js.get. by rewrite lookup_insert_eq. Qed.

Lemma get_insert_absent (o : JWTPayload) k k' v :
  k <> k' -> o !! k' = None -> Js.get (<[k := v]> o) k' = Js.Undefined.
Proof. intros Hk Ho. unfold Js.get. by rewrite lookup_insert_ne, Ho. Qed.

Lemma extract_scopes_with_scopes f l base :
  base !! "scopes" = None ->
  base !! "scope" = None ->
  base !! "permissions" = None ->
  Forall scope_word l ->
  extract_scopes (with_scopes f l base) = Normal (Js.Arr (map Js.Str l)).
Proof.
  intros H1 H2 H3 Hl. unfold extract_scopes, with_scopes.
  destruct f; cbn [scope_field scope_claim].
  - rewrite (get_insert_absent base "scope" "scopes") by done.
    rewrite get_insert_eq.
    rewrite (get_insert_absent base "scope" "permissions") by done.
    destruct l as [|w l']; [done|].
    rewrite join_truthy by done. cbn [Js.truthy scope_split].
    by rewrite split_join.
  - by rewrite get_insert_eq.
  - rewrite (get_insert_absent base "permissions" "scopes") by done.
    rewrite (get_insert_absent base "permissions" "scope") by done.
    by rewrite get_insert_eq.
Qed.

(** C5, refuted as stated.  The scope array is returned as the payload
    carries it: a scope given twice stays twice in the result, and the
    same two scopes in two forms and two orders give two different
    arrays. *)
Lemma C5_counterexample_duplicates_and_order_kept :
  (validateToken Sample.cfg_production
     (Sample.runtime (fun _ =>
        Normal (with_scopes ScopesArray ["email.read"; "email.read"]
                  Sample.payload_without_scopes)))
     "header.payload.signature" (Sample.fresh Sample.cfg_production)).1
  = Normal (claims_of Sample.payload_without_scopes
              (Js.Arr [Js.Str "email.read"; Js.Str "email.read"]))
  /\ ~ NoDup [Js.Str "email.read"; Js.Str "email.read"]
  /\ extract_scopes (with_scopes ScopesArray ["email.read"; "calendar.write"]
                       Sample.payload_without_scopes)
     = Normal (Js.Arr [Js.Str "email.read"; Js.Str "calendar.write"])
  /\ extract_scopes (with_scopes ScopeString ["calendar.write"; "email.read"]
                       Sample.payload_without_scopes)
     = Normal (Js.Arr [Js.Str "calendar.write"; Js.Str "email.read"]).
Proof.
  split; [vm_compute; reflexivity|].
  split; [|split; vm_compute; reflexivity].
  rewrite NoDup_cons, list_elem_of_singleton. tauto.
Qed.

(** C5, amended.  For a list of scope values, each non-empty and free of
    spaces, the three encodings (the values joined by single spaces under
    [scope], the array under [scopes], the array under [permissions])
    make [validateToken] return one and the same scope array: the values
    in the order given, repeated values kept. *)
Theorem C5_scope_forms_yield_same_array cfg rt token st f l base :
  mock_mode cfg (service st) = false ->
  base !! "scopes" = None ->
  base !! "scope" = None ->
  base !! "permissions" = None ->
  Forall scope_word l ->
  verdict rt token st = Normal (with_scopes f l base) ->
  exists c,
    validateToken cfg rt token st = (Normal c, verifying token st)
    /\ scopes c = Js.Arr (map Js.Str l).
Proof.
  intros Hm H1 H2 H3 Hl Hv.
  exists (claims_of (with_scopes f l base) (Js.Arr (map Js.Str l))).
  split; [|done].
  rewrite (validateToken_verified cfg rt token st _ Hm Hv).
  by rewrite extract_scopes_with_scopes.
Qed.

Lemma C5_witness_scope_string :
  exists c,
    validateToken Sample.cfg_production
      (Sample.runtime (fun _ =>
         Normal (with_scopes ScopeString ["email.read"; "email.summarize"]
                   Sample.payload_without_scopes)))
      "header.payload.signature" (Sample.fresh Sample.cfg_production)
    = (Normal c, verifying "header.payload.signature" (Sample.fresh Sample.cfg_production))
    /\ scopes c = Js.Arr [Js.Str "email.read"; Js.Str "email.summarize"].
Proof.
  apply (C5_scope_forms_yield_same_array Sample.cfg_production
           (Sample.runtime (fun _ =>
              Normal (with_scopes ScopeString ["email.read"; "email.summarize"]
                        Sample.payload_without_scopes)))
           "header.payload.signature" (Sample.fresh Sample.cfg_production)
           ScopeString ["email.read"; "email.summarize"]
           Sample.payload_without_scopes); try reflexivity.
  repeat constructor; discriminate.
Defined.

(** ** Repeated verification *)

Lemma verifying_service token st :
  service (verifying token st)
  = {| jwks := Some (keys_in_use (service st));
       projectId := projectId (service st) |}.
Proof.
  unfold verifying. cbn [record service]. apply getJWKS_service.
Qed.

(** Once a verifying run is over, the client exists: later runs create
    none. *)
Lemma validateToken_creates_client_once cfg rt token st :
  mock_mode cfg (service st) = false ->
  jwks_creation (service (validateToken cfg rt token st).2) = [].
Proof.
  intros Hm.
  assert (Hs : service (validateToken cfg rt token st).2
               = service (verifying token st)).
  { destruct (verdict rt token st) as [p|e] eqn:Hv.
    - rewrite (validateToken_verified cfg rt token st p Hm Hv).
      by destruct (extract_scopes p).
    - by rewrite (validateToken_rejected cfg rt token st e Hm Hv). }
  rewrite Hs, verifying_service. done.
Qed.

(** C8.  Verifying the same token twice under one configuration, the
    library giving the second time the verdict it gave the first time (the
    token is still valid), yields a claim set again, with the same subject
    and the same scopes.  Claim sets are values: nothing the second call
    does reaches the first result, and the second call leaves the service
    as the first one left it. *)
Theorem C8_validateToken_idempotent cfg rt1 rt2 token st c1 st1 :
  (forall keys opts, jwtVerify rt2 token keys opts = jwtVerify rt1 token keys opts) ->
  validateToken cfg rt1 token st = (Normal c1, st1) ->
  exists c2 st2,
    validateToken cfg rt2 token st1 = (Normal c2, st2)
    /\ sub c2 = sub c1
    /\ scopes c2 = scopes c1
    /\ service st2 = service st1.
Proof.
  intros Hsame Hfirst.
  destruct (mock_mode cfg (service st)) eqn:Hm.
  - rewrite validateToken_mock in Hfirst by done.
    injection Hfirst as <- <-.
    rewrite validateToken_mock by done.
    by eexists _, _.
  - destruct (verdict rt1 token st) as [p|e] eqn:Hv.
    2: { by rewrite (validateToken_rejected cfg rt1 token st e Hm Hv) in Hfirst. }
    rewrite (validateToken_verified cfg rt1 token st p Hm Hv) in Hfirst.
    destruct (extract_scopes p) as [s|e] eqn:Hs; [|done].
    injection Hfirst as <- <-.
    assert (Hm' : mock_mode cfg (service (verifying token st)) = false).
    { by rewrite verifying_service. }
    assert (Hv' : verdict rt2 token (verifying token st) = Normal p).
    { unfold verdict. rewrite Hsame, verifying_service. exact Hv. }
    rewrite (validateToken_verified cfg rt2 token _ p Hm' Hv'), Hs.
    eexists _, _. repeat split.
    rewrite !verifying_service. done.
Qed.

Lemma C8_witness_same_token_twice :
  exists c2 st2,
    validateToken Sample.cfg_production
      (Sample.runtime (fun _ => Normal Sample.email_payload))
      "header.payload.signature"
      (verifying "header.payload.signature" (Sample.fresh Sample.cfg_production))
    = (Normal c2, st2)
    /\ sub c2 = Js.Str "user-1"
    /\ scopes c2 = Js.Arr [Js.Str "email.read"; Js.Str "email.summarize"]
    /\ service st2
       = service (verifying "header.payload.signature"
                    (Sample.fresh Sample.cfg_production)).
Proof.
  apply (C8_validateToken_idempotent Sample.cfg_production
           (Sample.runtime (fun _ => Normal Sample.email_payload))
           (Sample.runtime (fun _ => Normal Sample.email_payload))
           "header.payload.signature" (Sample.fresh Sample.cfg_production)
           (claims_of Sample.email_payload
              (Js.Arr [Js.Str "email.read"; Js.Str "email.summarize"]))).
  - reflexivity.
  - reflexivity.
Defined.

(** * Further properties of the gateway *)

(** ** The trace and the service across [validateToken] *)

Lemma validateToken_effects cfg rt token st :
  effects (validateToken cfg rt token st).2
  = effects st ++ validation_effects cfg rt token st.
Proof.
  unfold validation_effects.
  destruct (mock_mode cfg (service st)) eqn:Hm.
  - by rewrite validateToken_mock.
  - destruct (verdict rt token st) as [p|e] eqn:Hv.
    + rewrite (validateToken_verified cfg rt token st p Hm Hv).
      destruct (extract_scopes p) as [s|e]; cbn [snd record effects];
        rewrite verifying_effects, <- ?app_assoc; by rewrite ?app_nil_r.
    + rewrite (validateToken_rejected cfg rt token st e Hm Hv).
      cbn [snd record effects]. by rewrite verifying_effects, <- !app_assoc.
Qed.

Lemma validateToken_service cfg rt token st :
  service (validateToken cfg rt token st).2 = validated_service cfg (service st).
Proof.
  unfold validated_service.
  destruct (mock_mode cfg (service st)) eqn:Hm.
  - by rewrite validateToken_mock.
  - destruct (verdict rt token st) as [p|e] eqn:Hv.
    + rewrite (validateToken_verified cfg rt token st p Hm Hv).
      destruct (extract_scopes p); cbn [snd record service];
        apply verifying_service.
    + rewrite (validateToken_rejected cfg rt token st e Hm Hv).
      cbn [snd record service]. apply verifying_service.
Qed.

Lemma validation_effects_no_proxy cfg rt token st target :
  ProxyTo target ∉ validation_effects cfg rt token st.
Proof.
  unfold validation_effects. destruct (mock_mode cfg (service st)).
  - rewrite list_elem_of_singleton. discriminate.
  - rewrite not_elem_of_app, not_elem_of_cons. repeat split.
    + apply not_in_jwks_creation.
    + discriminate.
    + destruct (verdict rt token st) as [p|e]; [destruct (extract_scopes p)|];
        rewrite ?list_elem_of_singleton; try discriminate; apply not_elem_of_nil.
Qed.

(** What a throwing run of [validateToken] looks like. *)
Lemma validateToken_throw_inv cfg rt token st e st' :
  validateToken cfg rt token st = (Throw e, st') ->
  mock_mode cfg (service st) = false
  /\ exists cause,
      e = validation_failed cause
      /\ st' = record (failure_log cause) (verifying token st)
      /\ (verdict rt token st = Throw cause
          \/ exists payload,
               verdict rt token st = Normal payload
               /\ extract_scopes payload = Throw cause).
Proof.
  intros Hrun.
  destruct (mock_mode cfg (service st)) eqn:Hm.
  { by rewrite validateToken_mock in Hrun. }
  split; [done|].
  destruct (verdict rt token st) as [p|c] eqn:Hv.
  - rewrite (validateToken_verified cfg rt token st p Hm Hv) in Hrun.
    destruct (extract_scopes p) as [s|c] eqn:Hs; [done|].
    injection Hrun as <- <-. exists c. eauto 6.
  - rewrite (validateToken_rejected cfg rt token st c Hm Hv) in Hrun.
    injection Hrun as <- <-. exists c. eauto.
Qed.

(** X1.  [validateToken] throws nothing but its own error: whenever it
    throws, the run was a verifying one, the error is an [Error] whose
    message is [Token validation failed: ] followed by the message of the
    cause, the cause being what the library threw or the [TypeError] of
    splitting a scope claim that is no string, and the failure has been
    logged.  The development branch never throws. *)
Theorem validateToken_throws_only_validation_failed cfg rt token st e st' :
  validateToken cfg rt token st = (Throw e, st') ->
  mock_mode cfg (service st) = false
  /\ exists cause,
      e = Js.mkError "Error" ("Token validation failed: " +:+ Js.message cause)
      /\ st' = record (failure_log cause) (verifying token st)
      /\ (verdict rt token st = Throw cause
          \/ exists payload,
               verdict rt token st = Normal payload
               /\ extract_scopes payload = Throw cause).
Proof.
  exact (validateToken_throw_inv cfg rt token st e st').
Qed.

Lemma validateToken_throws_witness_bad_scope :
  mock_mode Sample.cfg_production (service (Sample.fresh Sample.cfg_production)) = false
  /\ exists cause,
      Js.mkError "Error" "Token validation failed: scope.split is not a function"
      = Js.mkError "Error" ("Token validation failed: " +:+ Js.message cause)
      /\ record (failure_log (Js.mkError "TypeError" "scope.split is not a function"))
           (verifying "header.payload.signature" (Sample.fresh Sample.cfg_production))
         = record (failure_log cause)
             (verifying "header.payload.signature" (Sample.fresh Sample.cfg_production))
      /\ (verdict (Sample.runtime (fun _ => Normal Sample.payload_with_bad_scope))
            "header.payload.signature" (Sample.fresh Sample.cfg_production)
          = Throw cause
          \/ exists payload,
               verdict (Sample.runtime (fun _ => Normal Sample.payload_with_bad_scope))
                 "header.payload.signature" (Sample.fresh Sample.cfg_production)
               = Normal payload
               /\ extract_scopes payload = Throw cause).
Proof.
  apply (validateToken_throws_only_validation_failed Sample.cfg_production
           (Sample.runtime (fun _ => Normal Sample.payload_with_bad_scope))
           "header.payload.signature" (Sample.fresh Sample.cfg_production)).
  reflexivity.
Defined.

(** ** The middleware and the router *)

(** The effects and the service across one run of the middleware. *)
Lemma authMiddleware_run cfg rt req st :
  (authMiddleware cfg rt req st = (Normal (Next req), st)
   /\ Js.includes PUBLIC_PATHS (path req) = true)
  \/ (authMiddleware cfg rt req st = (Normal (Respond MISSING_TOKEN), st)
      /\ protected req /\ has_bearer (authorization req) = false)
  \/ (protected req /\ has_bearer (authorization req) = true
      /\ exists st1,
          ((exists c,
              validateToken cfg rt (bearer_token req) st = (Normal c, st1)
              /\ authMiddleware cfg rt req st
                 = (Normal (Next (with_user req (user_of c))),
                    record (authenticated_log req c) st1))
           \/ (exists e,
                 validateToken cfg rt (bearer_token req) st = (Throw e, st1)
                 /\ authMiddleware cfg rt req st
                    = (Normal (Respond (UNAUTHORIZED e)),
                       record (denied_log req e) st1)))).
Proof.
  destruct (Js.includes PUBLIC_PATHS (path req)) eqn:Hp.
  { left. split; [by apply authMiddleware_public | done]. }
  destruct (has_bearer (authorization req)) eqn:Hb.
  2: { right; left. split; [by apply authMiddleware_no_bearer | done]. }
  right; right. split; [done|]. split; [done|].
  rewrite (authMiddleware_bearer cfg rt req st Hp Hb).
  destruct (validateToken cfg rt (bearer_token req) st) as [[c|e] st1];
    exists st1; eauto.
Qed.

Lemma authMiddleware_normal cfg rt req st :
  exists o st', authMiddleware cfg rt req st = (Normal o, st').
Proof.
  destruct (authMiddleware_run cfg rt req st)
    as [[-> _] | [[-> _] | (_ & _ & st1 & [(c & _ & ->) | (e & _ & ->)])]];
    by eexists _, _.
Qed.

Lemma authMiddleware_respond_401 cfg rt req st res st' :
  authMiddleware cfg rt req st = (Normal (Respond res), st') -> status res = 401.
Proof.
  intros Hrun.
  destruct (authMiddleware_run cfg rt req st)
    as [[Ha _] | [[Ha _] | (_ & _ & st1 & [(c & _ & Ha) | (e & _ & Ha)])]];
    rewrite Ha in Hrun; try done; by injection Hrun as <- _.
Qed.

(** X2.  [authMiddleware] never throws: whatever [validateToken] does, the
    middleware ends normally.  When it answers instead of handing the
    request on, the status is 401 and the answer is either [MISSING_TOKEN]
    or [UNAUTHORIZED] with the message [validateToken] threw, so the
    fall-back text [Authentication failed] is never sent.  A request
    handed on keeps its path and its header. *)
Theorem authMiddleware_never_throws_and_denies_with_401 cfg rt req st :
  exists o st',
    authMiddleware cfg rt req st = (Normal o, st')
    /\ match o with
       | Next req' =>
           path req' = path req /\ authorization req' = authorization req
       | Respond res =>
           status res = 401
           /\ (res = MISSING_TOKEN
               \/ exists cause,
                   code res = "UNAUTHORIZED"
                   /\ error_message res
                      = "Token validation failed: " +:+ Js.message cause)
       end.
Proof.
  destruct (authMiddleware_run cfg rt req st)
    as [[-> _] | [[-> _] | (_ & _ & st1 & [(c & _ & ->) | (e & Hv & ->)])]].
  - eexists _, _. split; [done|]. done.
  - eexists _, _. split; [done|]. split; [done|]. by left.
  - eexists _, _. split; [done|]. done.
  - eexists _, _. split; [done|]. split; [done|]. right.
    apply validateToken_throw_inv in Hv as (_ & cause & -> & _).
    by exists cause.
Qed.

Lemma public_path_not_mounted p :
  Js.includes PUBLIC_PATHS p = true ->
  mounted "/emails" p = false /\ mounted "/calendar" p = false.
Proof.
  unfold Js.includes, PUBLIC_PATHS. cbn [existsb].
  rewrite !orb_true_iff, !String.eqb_eq.
  intros [-> | [-> | [-> | [-> | ?]]]]; try done; by vm_compute.
Qed.

(** X3.  Nothing reaches an agent unauthenticated: whenever the proxy
    router proxies a request, the request carried a [Bearer ] header,
    [validateToken] returned a claim set for its token, the proxied
    request is the original one with the user of those claims attached,
    and the target is one of the two configured agents.  The public
    paths of the middleware are under neither proxy mount. *)
Theorem proxied_request_was_validated cfg rt req st target req' st' :
  proxy_router cfg rt req st = (Normal (Proxied target req'), st') ->
  has_bearer (authorization req) = true
  /\ (target = agentAUrl cfg \/ target = agentBUrl cfg)
  /\ exists c st1,
      validateToken cfg rt (bearer_token req) st = (Normal c, st1)
      /\ req' = with_user req (user_of c).
Proof.
  intros Hrun.
  destruct (authMiddleware_run cfg rt req st)
    as [[Ha Hp] | [[Ha _] | (_ & Hb & st1 & [(c & Hv & Ha) | (e & _ & Ha)])]].
  - rewrite (proxy_router_next cfg rt req st _ _ Ha) in Hrun.
    destruct (public_path_not_mounted _ Hp) as [He Hc].
    by rewrite He, Hc in Hrun.
  - by rewrite (proxy_router_answered cfg rt req st _ _ Ha) in Hrun.
  - rewrite (proxy_router_next cfg rt req st _ _ Ha) in Hrun.
    split; [done|].
    destruct (mounted "/emails" _); [|destruct (mounted "/calendar" _)];
      [injection Hrun as <- <- _ | injection Hrun as <- <- _ | done];
      (split; [by auto | by exists c, st1]).
  - by rewrite (proxy_router_answered cfg rt req st _ _ Ha) in Hrun.
Qed.

Lemma proxied_request_witness :
  has_bearer (authorization Sample.calendar_request) = true
  /\ ("http://localhost:8002" = agentAUrl Sample.cfg_production
      \/ "http://localhost:8002" = agentBUrl Sample.cfg_production)
  /\ exists c st1,
      validateToken Sample.cfg_production
        (Sample.runtime (fun _ => Normal Sample.email_payload))
        (bearer_token Sample.calendar_request) (Sample.fresh Sample.cfg_production)
      = (Normal c, st1)
      /\ with_user Sample.calendar_request
           (user_of (claims_of Sample.email_payload
                       (Js.Arr [Js.Str "email.read"; Js.Str "email.summarize"])))
         = with_user Sample.calendar_request (user_of c).
Proof.
  apply (proxied_request_was_validated Sample.cfg_production
           (Sample.runtime (fun _ => Normal Sample.email_payload))
           Sample.calendar_request (Sample.fresh Sample.cfg_production)
           "http://localhost:8002" _
           (record (ProxyTo "http://localhost:8002")
              (record (authenticated_log Sample.calendar_request
                         (claims_of Sample.email_payload
                            (Js.Arr [Js.Str "email.read"; Js.Str "email.summarize"])))
                 (verifying "header.payload.signature"
                    (Sample.fresh Sample.cfg_production))))).
  reflexivity.
Defined.

(** The trace across the middleware: it only grows, and by no proxy
    call. *)
Lemma authMiddleware_effects cfg rt req st :
  exists new,
    effects (authMiddleware cfg rt req st).2 = effects st ++ new
    /\ forall target, ProxyTo target ∉ new.
Proof.
  destruct (authMiddleware_run cfg rt req st)
    as [[-> _] | [[-> _] | (_ & _ & st1 & [(c & Hv & ->) | (e & Hv & ->)])]].
  - exists []. split; [by rewrite app_nil_r | intros; apply not_elem_of_nil].
  - exists []. split; [by rewrite app_nil_r | intros; apply not_elem_of_nil].
  - pose proof (validateToken_effects cfg rt (bearer_token req) st) as He.
    rewrite Hv in He. cbn [snd] in He.
    eexists. split.
    + cbn [snd record effects]. rewrite He, <- app_assoc. reflexivity.
    + intros target. rewrite not_elem_of_app, list_elem_of_singleton.
      split; [apply validation_effects_no_proxy | discriminate].
  - pose proof (validateToken_effects cfg rt (bearer_token req) st) as He.
    rewrite Hv in He. cbn [snd] in He.
    eexists. split.
    + cbn [snd record effects]. rewrite He, <- app_assoc. reflexivity.
    + intros target. rewrite not_elem_of_app, list_elem_of_singleton.
      split; [apply validation_effects_no_proxy | discriminate].
Qed.

(** X4.  The trace tells what the router did: a proxy call to a target
    appears among the effects of a run exactly when the run ended by
    proxying the request to that target.  Answered and fallen-through
    requests cause no proxy call. *)
Theorem proxy_call_iff_proxied cfg rt req st target :
  ProxyTo target ∈ new_effects st (proxy_router cfg rt req st).2
  <-> exists req', (proxy_router cfg rt req st).1 = Normal (Proxied target req').
Proof.
  destruct (authMiddleware_effects cfg rt req st) as (new & Hnew & Hno).
  destruct (authMiddleware_normal cfg rt req st) as (o & st1 & Ha).
  rewrite Ha in Hnew. cbn [snd] in Hnew.
  destruct o as [req1|res].
  - rewrite (proxy_router_next cfg rt req st _ _ Ha).
    destruct (mounted "/emails" (path req1));
      [|destruct (mounted "/calendar" (path req1))]; cbn [fst snd].
    + erewrite new_effects_app
        by (cbn [record effects]; rewrite Hnew, <- app_assoc; reflexivity).
      rewrite elem_of_app, list_elem_of_singleton. split.
      * intros [Hin | [= ->]]; [by apply Hno in Hin | by eexists].
      * intros [req' [= -> _]]. by right.
    + erewrite new_effects_app
        by (cbn [record effects]; rewrite Hnew, <- app_assoc; reflexivity).
      rewrite elem_of_app, list_elem_of_singleton. split.
      * intros [Hin | [= ->]]; [by apply Hno in Hin | by eexists].
      * intros [req' [= -> _]]. by right.
    + erewrite new_effects_app by exact Hnew. split.
      * intros Hin. by apply Hno in Hin.
      * intros [req' [=]].
  - rewrite (proxy_router_answered cfg rt req st _ _ Ha). cbn [fst snd].
    erewrite new_effects_app by exact Hnew. split.
    + intros Hin. by apply Hno in Hin.
    + intros [req' [=]].
Qed.

(** ** Series of validations *)

Lemma validated_service_projectId cfg svc :
  projectId (validated_service cfg svc) = projectId svc.
Proof. unfold validated_service. by destruct (mock_mode cfg svc). Qed.

Lemma validated_service_keys cfg svc :
  keys_in_use (validated_service cfg svc) = keys_in_use svc.
Proof. unfold validated_service. by destruct (mock_mode cfg svc). Qed.

Lemma validated_service_mock_mode cfg svc :
  mock_mode cfg (validated_service cfg svc) = mock_mode cfg svc.
Proof. unfold validated_service. by destruct (mock_mode cfg svc) eqn:Hm. Qed.

Lemma creations_of_validation cfg rt token st :
  List.filter is_creation (validation_effects cfg rt token st)
  = if mock_mode cfg (service st) then [] else jwks_creation (service st).
Proof.
  unfold validation_effects, jwks_creation.
  destruct (mock_mode cfg (service st)); [done|].
  rewrite List.filter_app. cbn [List.filter is_creation].
  destruct (jwks (service st));
    (destruct (verdict rt token st) as [p|e]; [destruct (extract_scopes p)|]); done.
Qed.

Lemma verify_calls_of_validation cfg rt token st tok keys opts :
  JwtVerify tok keys opts ∈ validation_effects cfg rt token st ->
  tok = token
  /\ keys = keys_in_use (service st)
  /\ opts = verify_options (projectId (service st)).
Proof.
  unfold validation_effects, jwks_creation.
  destruct (mock_mode cfg (service st)).
  { rewrite list_elem_of_singleton. discriminate. }
  rewrite elem_of_app, elem_of_cons.
  intros [Hin | [Heq | Hin]]; [|by injection Heq as -> -> ->|].
  - destruct (jwks (service st)); [by apply elem_of_nil in Hin|].
    by apply list_elem_of_singleton in Hin.
  - destruct (verdict rt token st) as [p|e]; [destruct (extract_scopes p)|];
      try (by apply elem_of_nil in Hin); by apply list_elem_of_singleton in Hin.
Qed.

(** X5.  Over any series of validations the service keeps its project id
    and its key-set handle, the trace only grows, at most one key-set
    client is created (none if one was memoised at the start, and then
    for the URL of the service's project), and every call of the library
    is made on a token of the series, with that one handle and with the
    issuer and audience of the service's project. *)
Theorem validations_share_one_client cfg calls st :
  exists new,
    effects (validate_each cfg calls st) = effects st ++ new
    /\ projectId (service (validate_each cfg calls st)) = projectId (service st)
    /\ keys_in_use (service (validate_each cfg calls st)) = keys_in_use (service st)
    /\ (List.filter is_creation new = []
        \/ jwks (service st) = None
           /\ List.filter is_creation new
              = [CreateRemoteJWKSet (jwks_uri (projectId (service st)))])
    /\ forall tok keys opts,
         JwtVerify tok keys opts ∈ new ->
         keys = keys_in_use (service st)
         /\ opts = verify_options (projectId (service st))
         /\ exists rt, (rt, tok) ∈ calls.
Proof.
  revert st. induction calls as [|[rt token] rest IH]; intros st.
  { exists []. cbn [validate_each]. rewrite app_nil_r.
    do 3 (split; [done|]). split; [by left|].
    intros tok keys opts Hin. by apply elem_of_nil in Hin. }
  cbn [validate_each].
  destruct (IH (validateToken cfg rt token st).2)
    as (new & Heff & Hpid & Hkeys & Hcre & Hcalls).
  rewrite validateToken_service in Hpid, Hkeys, Hcre, Hcalls.
  rewrite validated_service_projectId in Hpid, Hcre, Hcalls.
  rewrite validated_service_keys in Hkeys, Hcalls.
  exists (validation_effects cfg rt token st ++ new).
  split; [by rewrite Heff, validateToken_effects, <- app_assoc|].
  split; [done|]. split; [done|]. split.
  - rewrite List.filter_app, creations_of_validation.
    unfold validated_service, jwks_creation in *.
    destruct (mock_mode cfg (service st)); [exact Hcre|].
    destruct (jwks (service st)) eqn:Hj.
    + destruct Hcre as [-> | [Hn _]]; [by left | done].
    + destruct Hcre as [-> | [Hn _]]; [right; by rewrite app_nil_r | done].
  - intros tok keys opts [Hin | Hin]%elem_of_app.
    + apply verify_calls_of_validation in Hin as (-> & -> & ->).
      repeat split. exists rt. apply elem_of_cons. by left.
    + destruct (Hcalls tok keys opts Hin) as (-> & -> & rt' & Hrt).
      repeat split. exists rt'. apply elem_of_cons. by right.
Qed.

(** ** The browser client against the gateway *)






(** X8.  Every denial of [authMiddleware] sends a browser client to the
    sign-in page: the status of the answer is 401, on which the response
    interceptor navigates to [/auth/signin] when there is a window and
    nowhere when there is none; either way it rejects with the error it
    was given. *)
Theorem denial_redirects_to_signin cfg rt req st res st' sessionStorage :
  authMiddleware cfg rt req st = (Normal (Respond res), st') ->
  response_error_interceptor (Some sessionStorage)
    {| response_status := Some (status res) |}
  = (Some "/auth/signin", {| response_status := Some (status res) |})
  /\ response_error_interceptor None {| response_status := Some (status res) |}
     = (None, {| response_status := Some (status res) |}).
Proof.
  intros Hrun. rewrite (authMiddleware_respond_401 cfg rt req st res st' Hrun).
  split; reflexivity.
Qed.

Lemma denial_redirects_witness :
  response_error_interceptor (Some ∅)
    {| response_status := Some (status MISSING_TOKEN) |}
  = (Some "/auth/signin", {| response_status := Some (status MISSING_TOKEN) |}).
Proof.
  refine (proj1
    (denial_redirects_to_signin Sample.cfg_production
       (Sample.runtime (fun _ => Normal Sample.email_payload))
       Sample.anonymous_request (Sample.fresh Sample.cfg_production)
       MISSING_TOKEN (Sample.fresh Sample.cfg_production) ∅ _)).
  reflexivity.
Defined.

(** ** The routes under [/api/auth] *)

Lemma post_validate_bearer cfg rt req st :
  has_bearer (authorization req) = true ->
  post_validate cfg rt req st
  = match validateToken cfg rt (bearer_token req) st with
    | (Normal c, st') => (Normal (json (validate_body c)), st')
    | (Throw e, st') =>
        (Normal (status_json 401
                   (error_body "INVALID_TOKEN" (message_or e "Token validation failed"))),
         record (Log "warn" "Token validation failed"
                   [("error", Js.Str (Js.message e))]) st')
    end.
Proof.
  intros Hb. unfold post_validate, try_catch, bind, ret, logger_warn, emit.
  rewrite Hb. cbn [negb].
  by destruct (validateToken cfg rt (bearer_token req) st) as [[c|e] st'].
Qed.

Lemma get_me_bearer cfg rt req st :
  has_bearer (authorization req) = true ->
  get_me cfg rt req st
  = match validateToken cfg rt (bearer_token req) st with
    | (Normal c, st') => (Normal (json (me_body c)), st')
    | (Throw e, st') =>
        (Normal (status_json 401
                   (error_body "UNAUTHORIZED" "Invalid or expired session")), st')
    end.
Proof.
  intros Hb. unfold get_me, try_catch, bind, ret.
  rewrite Hb. cbn [negb].
  by destruct (validateToken cfg rt (bearer_token req) st) as [[c|e] st'].
Qed.

(** X9.  [POST /validate] admits what the middleware admits.  On a path
    the middleware protects, with the same header and in the same state,
    the route answers 200 exactly when the middleware hands the request
    on, and then the subject and e-mail it reports are those of the user
    the middleware attaches; otherwise both answer 401.  The route never
    throws. *)
Theorem post_validate_agrees_with_authMiddleware cfg rt req st :
  protected req ->
  exists r st1,
    post_validate cfg rt req st = (Normal r, st1)
    /\ ((reply_status r = 200
         /\ exists c st2,
             reply_body r = validate_body c
             /\ authMiddleware cfg rt req st
                = (Normal (Next (with_user req (user_of c))), st2)
             /\ id (user_of c) = sub c
             /\ user_email (user_of c) = email c)
        \/ (reply_status r = 401
            /\ exists res st2,
                authMiddleware cfg rt req st = (Normal (Respond res), st2)
                /\ status res = 401)).
Proof.
  intros Hp.
  destruct (has_bearer (authorization req)) eqn:Hb.
  - rewrite post_validate_bearer, authMiddleware_bearer by done.
    destruct (validateToken cfg rt (bearer_token req) st) as [[c|e] st'].
    + eexists _, _. split; [done|]. left. split; [done|].
      exists c. eexists. done.
    + eexists _, _. split; [done|]. right. split; [done|].
      eexists _, _. done.
  - rewrite authMiddleware_no_bearer by done.
    unfold post_validate, try_catch, ret. rewrite Hb. cbn [negb].
    eexists _, _. split; [done|]. right. split; [done|].
    eexists _, _. done.
Qed.

Lemma post_validate_agrees_witness :
  exists r st1,
    post_validate Sample.cfg_production
      (Sample.runtime (fun _ => Normal Sample.email_payload))
      Sample.calendar_request (Sample.fresh Sample.cfg_production)
    = (Normal r, st1)
    /\ ((reply_status r = 200
         /\ exists c st2,
             reply_body r = validate_body c
             /\ authMiddleware Sample.cfg_production
                  (Sample.runtime (fun _ => Normal Sample.email_payload))
                  Sample.calendar_request (Sample.fresh Sample.cfg_production)
                = (Normal (Next (with_user Sample.calendar_request (user_of c))), st2)
             /\ id (user_of c) = sub c
             /\ user_email (user_of c) = email c)
        \/ (reply_status r = 401
            /\ exists res st2,
                authMiddleware Sample.cfg_production
                  (Sample.runtime (fun _ => Normal Sample.email_payload))
                  Sample.calendar_request (Sample.fresh Sample.cfg_production)
                = (Normal (Respond res), st2)
                /\ status res = 401)).
Proof.
  apply (post_validate_agrees_with_authMiddleware Sample.cfg_production
           (Sample.runtime (fun _ => Normal Sample.email_payload))
           Sample.calendar_request (Sample.fresh Sample.cfg_production)).
  reflexivity.
Defined.

(** X10.  [GET /me] tells a caller nothing about why a token failed: two
    runs on the same request in which validation throws, for whatever
    reasons, send the same reply, 401 [UNAUTHORIZED] with a fixed
    message, and add no log entry of their own.  [POST /validate], on the
    same failure, echoes the message of the error. *)
Theorem get_me_hides_failure_reason cfg rt1 rt2 req st e1 st1 e2 st2 :
  has_bearer (authorization req) = true ->
  validateToken cfg rt1 (bearer_token req) st = (Throw e1, st1) ->
  validateToken cfg rt2 (bearer_token req) st = (Throw e2, st2) ->
  get_me cfg rt1 req st
  = (Normal (status_json 401 (error_body "UNAUTHORIZED" "Invalid or expired session")),
     st1)
  /\ (get_me cfg rt2 req st).1 = (get_me cfg rt1 req st).1
  /\ (post_validate cfg rt1 req st).1
     = Normal (status_json 401 (error_body "INVALID_TOKEN" (Js.message e1))).
Proof.
  intros Hb H1 H2.
  rewrite !get_me_bearer, post_validate_bearer by done. rewrite H1, H2.
  repeat split.
  apply validateToken_throw_inv in H1 as (_ & cause & -> & _).
  reflexivity.
Qed.

Lemma get_me_hides_witness :
  (get_me Sample.cfg_production (Sample.runtime (fun _ => Throw Sample.JWTExpired))
     Sample.calendar_request (Sample.fresh Sample.cfg_production)).1
  = (get_me Sample.cfg_production (Sample.runtime (fun _ => Throw Sample.JWKSTimeout))
       Sample.calendar_request (Sample.fresh Sample.cfg_production)).1.
Proof.
  refine (proj1 (proj2
    (get_me_hides_failure_reason Sample.cfg_production
       (Sample.runtime (fun _ => Throw Sample.JWKSTimeout))
       (Sample.runtime (fun _ => Throw Sample.JWTExpired))
       Sample.calendar_request (Sample.fresh Sample.cfg_production)
       (validation_failed Sample.JWKSTimeout)
       (record (failure_log Sample.JWKSTimeout)
          (verifying "header.payload.signature" (Sample.fresh Sample.cfg_production)))
       (validation_failed Sample.JWTExpired)
       (record (failure_log Sample.JWTExpired)
          (verifying "header.payload.signature" (Sample.fresh Sample.cfg_production)))
       _ _ _))); reflexivity.
Defined.


(** ** Posture: [config], [validateToken] and [errorMiddleware] *)

Lemma env_or_nonempty env k d : d <> "" -> env_or env k d <> "".
Proof.
  intros Hd. unfold env_or. destruct (env !! k) as [v|]; [|done].
  by destruct (String.eqb_spec v "").
Qed.

(** X12.  An unset or empty [NODE_ENV] is the development posture: the
    configuration loads whatever else is set, and [validateToken] returns
    the mock claims for every token without calling the library, even
    with [DESCOPE_PROJECT_ID] set.  The posture and the agent URLs of a
    configuration are never empty. *)
Theorem unset_node_env_is_development env rt token st :
  env !! "NODE_ENV" = None \/ env !! "NODE_ENV" = Some "" ->
  nodeEnv (config env) = "development"
  /\ load_config env = Running (config env)
  /\ validateToken (config env) rt token st
     = (Normal (getMockClaims rt token), record mock_log st)
  /\ (forall env', nodeEnv (config env') <> ""
                   /\ agentAUrl (config env') <> ""
                   /\ agentBUrl (config env') <> "").
Proof.
  intros Hn.
  assert (Hd : nodeEnv (config env) = "development").
  { unfold config, env_or. cbn [nodeEnv]. by destruct Hn as [-> | ->]. }
  split; [done|]. split; [|split].
  - unfold load_config. rewrite Hd. cbn [String.eqb Ascii.eqb Bool.eqb].
    by rewrite andb_false_r.
  - apply validateToken_mock. apply mock_mode_iff. by right.
  - intros env'. unfold config. cbn [nodeEnv agentAUrl agentBUrl].
    repeat split; by apply env_or_nonempty.
Qed.

Lemma unset_node_env_witness :
  validateToken (config (<["DESCOPE_PROJECT_ID" := "P2demo"]> ∅))
    (Sample.runtime (fun _ => Throw Sample.JWKSTimeout)) "not-a-token"
    (Sample.fresh (config (<["DESCOPE_PROJECT_ID" := "P2demo"]> ∅)))
  = (Normal (getMockClaims (Sample.runtime (fun _ => Throw Sample.JWKSTimeout))
               "not-a-token"),
     record mock_log (Sample.fresh (config (<["DESCOPE_PROJECT_ID" := "P2demo"]> ∅)))).
Proof.
  refine (proj1 (proj2 (proj2
    (unset_node_env_is_development (<["DESCOPE_PROJECT_ID" := "P2demo"]> ∅)
       (Sample.runtime (fun _ => Throw Sample.JWKSTimeout)) "not-a-token"
       (Sample.fresh (config (<["DESCOPE_PROJECT_ID" := "P2demo"]> ∅))) _)))).
  left. reflexivity.
Defined.

(** X13.  [errorMiddleware] puts the message of the error in its reply
    only when the environment variable [NODE_ENV] is exactly
    [development]; in every other case the reply is the same fixed 500.
    It reads the variable, not [config.nodeEnv]: with [NODE_ENV] unset
    the gateway validates tokens in the development branch and still
    hides the message. *)
Theorem errorMiddleware_hides_message env error stack method req st :
  env !! "NODE_ENV" <> Some "development" ->
  (errorMiddleware env error stack method req st).1
  = Normal (status_json 500
              (error_body "INTERNAL_SERVER_ERROR" "An unexpected error occurred"))
  /\ (env !! "NODE_ENV" = None ->
      forall svc, mock_mode (config env) svc = true)
  /\ (errorMiddleware (<["NODE_ENV" := "development"]> env) error stack method req st).1
     = Normal (status_json 500
                 (error_body "INTERNAL_SERVER_ERROR" (Js.message error))).
Proof.
  intros Hn. split; [|split].
  - unfold errorMiddleware, env_is, bind, logger_error, emit, ret. cbn [fst].
    destruct (env !! "NODE_ENV") as [v|]; [|done].
    by destruct (String.eqb_spec v "development") as [->|Hv].
  - intros Hu svc. apply mock_mode_iff. right.
    unfold config, env_or. cbn [nodeEnv]. by rewrite Hu.
  - unfold errorMiddleware, env_is, bind, logger_error, emit, ret. cbn [fst].
    by rewrite lookup_insert_eq.
Qed.

Lemma errorMiddleware_hides_witness :
  (errorMiddleware ∅ Sample.JWKSTimeout Js.Undefined "GET"
     Sample.calendar_request (Sample.fresh (config ∅))).1
  = Normal (status_json 500
              (error_body "INTERNAL_SERVER_ERROR" "An unexpected error occurred")).
Proof.
  refine (proj1
    (errorMiddleware_hides_message ∅ Sample.JWKSTimeout Js.Undefined "GET"
       Sample.calendar_request (Sample.fresh (config ∅)) _)).
  discriminate.
Defined.

(** ** The rate-limit key *)

(** X14.  The rate-limit key is never falsy: it is the user id when the
    request has a user with a truthy id, else the IP address when there
    is a non-empty one, else [anonymous].  A user whose id is the empty
    string, as [validateToken] makes it for a token without [sub], is
    keyed by address. *)
Theorem keyGenerator_never_falsy req ip :
  Js.truthy (keyGenerator req ip) = true
  /\ (Js.truthy (user_id req) = true -> keyGenerator req ip = user_id req)
  /\ (Js.truthy (user_id req) = false ->
      keyGenerator req ip
      = match ip with
        | Some a => if String.eqb a "" then Js.Str "anonymous" else Js.Str a
        | None => Js.Str "anonymous"
        end)
  /\ (forall payload s,
        payload !! "sub" = None ->
        keyGenerator (with_user req (user_of (claims_of payload s))) ip
        = keyGenerator {| path := path req; authorization := authorization req;
                          user := None |} ip).
Proof.
  unfold keyGenerator, Js.or.
  split; [|split; [|split]].
  - destruct (Js.truthy (user_id req)) eqn:Hu; [by rewrite Hu|].
    by destruct ip as [[|c a]|].
  - intros Hu. rewrite Hu. cbn beta iota. by rewrite Hu.
  - intros ->. by destruct ip as [[|c a]|].
  - intros payload s Hs. cbn [user_id with_user user user_of id].
    unfold claims_of, Js.get. cbn [sub]. by rewrite Hs.
Qed.

(** ** The proxy mounts *)

Lemma prefix_append s q :
  String.prefix s q = true -> exists r, q = s +:+ r.
Proof.
  revert q. induction s as [|a s IH]; intros q.
  - intros _. by exists q.
  - destruct q as [|b q]; [done|]. cbn [String.prefix].
    destruct (ascii_dec a b) as [->|]; [|done].
    intros [r ->]%IH. by exists r.
Qed.

Lemma lower_slash c : Js.lower c = "/"%char -> c = "/"%char.
Proof.
  destruct c as [[] [] [] [] [] [] [] []]; vm_compute; intros H;
    try reflexivity; discriminate H.
Qed.

(** X15.  No path is under both proxy mounts: a request proxied to
    Agent A could not have gone to Agent B had the two [router.use]
    lines been written in the other order.  A path that continues the
    letters of a mount is under it only if the next character is a
    [/]. *)
Theorem proxy_mounts_disjoint p :
  ~ (mounted "/emails" p = true /\ mounted "/calendar" p = true)
  /\ (forall c r, mounted "/emails" ("/emails" +:+ String c r) = true -> c = "/"%char)
  /\ (forall c r, mounted "/calendar" ("/calendar" +:+ String c r) = true -> c = "/"%char).
Proof.
  split; [|split].
  - unfold mounted, Js.startsWith.
    change (Js.toLowerCase "/emails") with "/emails".
    change (Js.toLowerCase "/calendar") with "/calendar".
    generalize (Js.toLowerCase p). intros q [He Hc].
    apply orb_true_iff in He as [->%String.eqb_eq | [r ->]%prefix_append];
      by vm_compute in Hc.
  - intros c r H. apply lower_slash. unfold mounted, Js.startsWith in H.
    change (Js.toLowerCase "/emails") with "/emails" in H.
    change (Js.toLowerCase ("/emails" +:+ String c r))
      with ("/emails" +:+ String (Js.lower c) (Js.toLowerCase r)) in H.
    apply orb_true_iff in H as [H%String.eqb_eq | [r' H]%prefix_append];
      cbn in H; [discriminate H | by injection H].
  - intros c r H. apply lower_slash. unfold mounted, Js.startsWith in H.
    change (Js.toLowerCase "/calendar") with "/calendar" in H.
    change (Js.toLowerCase ("/calendar" +:+ String c r))
      with ("/calendar" +:+ String (Js.lower c) (Js.toLowerCase r)) in H.
    apply orb_true_iff in H as [H%String.eqb_eq | [r' H]%prefix_append];
      cbn in H; [discriminate H | by injection H].
Qed.

(** ** Scope extraction, continued *)

(** X16.  The scope block throws in one case only: [scopes] is falsy and
    [scope] is a truthy value that is not a string; the error is then the
    [TypeError] of the missing [split].  A truthy [scopes] claim is
    returned as it is, whatever [scope] and [permissions] hold. *)
Theorem extract_scopes_throws_iff payload e :
  (extract_scopes payload = Throw e
   <-> Js.truthy (Js.get payload "scopes") = false
       /\ Js.truthy (Js.get payload "scope") = true
       /\ (forall s, Js.get payload "scope" <> Js.Str s)
       /\ e = Js.mkError "TypeError" "scope.split is not a function")
  /\ (Js.truthy (Js.get payload "scopes") = true ->
      extract_scopes payload = Normal (Js.get payload "scopes")).
Proof.
  unfold extract_scopes. split.
  - destruct (Js.truthy (Js.get payload "scopes")).
    { split; [done | by intros [? _]]. }
    destruct (Js.get payload "scope") as [| |b|n|s|xs|fs] eqn:Hs;
      cbn [Js.truthy scope_split].
    + destruct (Js.truthy (Js.get payload "permissions"));
        (split; [done | by intros (_ & ? & _)]).
    + destruct (Js.truthy (Js.get payload "permissions"));
        (split; [done | by intros (_ & ? & _)]).
    + destruct b.
      * split; [by intros [= <-] | by intros (_ & _ & _ & ->)].
      * destruct (Js.truthy (Js.get payload "permissions"));
          (split; [done | by intros (_ & ? & _)]).
    + destruct (negb (n =? 0)).
      * split; [by intros [= <-] | by intros (_ & _ & _ & ->)].
      * destruct (Js.truthy (Js.get payload "permissions"));
          (split; [done | by intros (_ & ? & _)]).
    + destruct (negb (String.eqb s "")).
      * split; [done | intros (_ & _ & Hn & _); by destruct (Hn s)].
      * destruct (Js.truthy (Js.get payload "permissions"));
          (split; [done | by intros (_ & ? & _)]).
    + split; [by intros [= <-] | by intros (_ & _ & _ & ->)].
    + split; [by intros [= <-] | by intros (_ & _ & _ & ->)].
  - by intros ->.
Qed.

Lemma split_nonempty s : Js.split " " s <> [].
Proof.
  destruct s as [|c r]; cbn [Js.split]; [done|].
  destruct (Ascii.eqb c " "); [done|]. by destruct (Js.split " " r).
Qed.

Lemma join_cons_cons w l :
  l <> [] -> Js.join " " (w :: l) = w +:+ String " " (Js.join " " l).
Proof. by destruct l. Qed.

Lemma join_split s : Js.join " " (Js.split " " s) = s.
Proof.
  induction s as [|c r IH]; [done|]. cbn [Js.split].
  destruct (Ascii.eqb_spec c " ") as [->|Hc].
  - rewrite join_cons_cons by apply split_nonempty. by rewrite IH.
  - pose proof (split_nonempty r) as Hne.
    destruct (Js.split " " r) as [|h t]; [done|].
    destruct t as [|h' t'].
    + cbn in IH |- *. by rewrite IH.
    + rewrite join_cons_cons by done. rewrite join_cons_cons in IH by done.
      change (String c h +:+ String " " (Js.join " " (h' :: t')))
        with (String c (h +:+ String " " (Js.join " " (h' :: t')))).
      by rewrite IH.
Qed.

Lemma split_no_spaces s : Forall (fun w => no_space w = true) (Js.split " " s).
Proof.
  induction s as [|c r IH]; cbn [Js.split]; [by repeat constructor|].
  destruct (Ascii.eqb c " ") eqn:Hc; [by constructor|].
  destruct (Js.split " " r) as [|h t].
  { constructor; [|done]. cbn [no_space]. by rewrite Hc. }
  apply Forall_cons in IH as [Hh Ht]. constructor; [|done].
  cbn [no_space]. by rewrite Hc, Hh.
Qed.

(** X17.  Splitting a [scope] string loses nothing: when the scope claim
    in use is a non-empty string, [validateToken] returns an array of
    strings, never empty, none containing a space, which joined by single
    spaces give the claim back.  Two adjacent spaces in the claim thus
    show as an empty scope in the array. *)
Theorem scope_string_round_trip cfg rt token st payload s :
  mock_mode cfg (service st) = false ->
  verdict rt token st = Normal payload ->
  Js.truthy (Js.get payload "scopes") = false ->
  Js.get payload "scope" = Js.Str s ->
  s <> "" ->
  exists l,
    validateToken cfg rt token st
    = (Normal (claims_of payload (Js.Arr (map Js.Str l))), verifying token st)
    /\ l <> []
    /\ Forall (fun w => no_space w = true) l
    /\ Js.join " " l = s.
Proof.
  intros Hm Hv Hscopes Hscope Hs.
  exists (Js.split " " s). split; [|split; [|split]].
  - rewrite (validateToken_verified cfg rt token st payload Hm Hv).
    unfold extract_scopes. rewrite Hscopes, Hscope.
    cbn [Js.truthy scope_split].
    by destruct (String.eqb_spec s "").
  - apply split_nonempty.
  - apply split_no_spaces.
  - apply join_split.
Qed.

Lemma scope_string_round_trip_witness :
  exists l,
    validateToken Sample.cfg_production
      (Sample.runtime (fun _ =>
         Normal (with_scopes ScopeString ["email.read"; "email.summarize"]
                   Sample.payload_without_scopes)))
      "header.payload.signature" (Sample.fresh Sample.cfg_production)
    = (Normal (claims_of (with_scopes ScopeString ["email.read"; "email.summarize"]
                            Sample.payload_without_scopes)
                 (Js.Arr (map Js.Str l))),
       verifying "header.payload.signature" (Sample.fresh Sample.cfg_production))
    /\ l <> []
    /\ Forall (fun w => no_space w = true) l
    /\ Js.join " " l = "email.read email.summarize".
Proof.
  apply (scope_string_round_trip Sample.cfg_production
           (Sample.runtime (fun _ =>
              Normal (with_scopes ScopeString ["email.read"; "email.summarize"]
                        Sample.payload_without_scopes)))
           "header.payload.signature" (Sample.fresh Sample.cfg_production)
           (with_scopes ScopeString ["email.read"; "email.summarize"]
              Sample.payload_without_scopes)
           "email.read email.summarize");
    [reflexivity | reflexivity | reflexivity | reflexivity | discriminate].
Defined.
